(** * The bundler configuration of react-webpack

    A shallow embedding of [webpack.config.js]: the object the module
    exports, as a function of the one thing it reads from the outside,
    [process.env.NODE_ENV], and of the two things Node supplies,
    [__dirname] and [path.resolve].

    JavaScript values are embedded by shape: an object literal is a record,
    a value that is either [false] or something else is [OrFalse], a
    constructor call [new P(opts)] is a constructor of an inductive type
    carrying its options, and [process.env] is a finite map from names to
    strings. *)

(** Beside the bundler configuration the development covers: which rule
    of the catalogue handles which file, through a model of the part of
    JavaScript's regular expressions that the patterns use; the module
    mapper of the test-runner configuration, against the rules of the
    bundler; and two reducers of the notes, the cart and the toggle, the
    latter over a store of arrays since it pops from the array of the state
    it is given. *)

From Stdlib Require Import Ascii String.
From stdpp Require Import gmap strings list.

Local Open Scope string_scope.

(** ** JavaScript values *)

(** [c ? false : v] and [c ? v : false]: the value is the literal [false]
    or a value of type [A]. *)
Inductive OrFalse (A : Type) : Type :=
| JsFalse : OrFalse A
| JsValue : A -> OrFalse A.

Arguments JsFalse {A}.
Arguments JsValue {A} _.

Definition is_enabled {A : Type} (v : OrFalse A) : bool :=
  match v with
  | JsFalse => false
  | JsValue _ => true
  end.

(** A regular-expression literal [/source/flags]. *)
Record RegExp : Type := mkRegExp {
  source : string;
  flags : string
}.

(** [haystack.includes(needle)] on strings. *)
Fixpoint includes (needle haystack : string) : bool :=
  String.prefix needle haystack ||
  match haystack with
  | EmptyString => false
  | String _ rest => includes needle rest
  end.

(** The placeholders of a file-name template that the bundler replaces by
    a hash of the content, of the chunk or of the whole build. *)
Definition fingerprint_placeholders : list string :=
  ["[contenthash]"; "[hash]"; "[chunkhash]"; "[fullhash]"; "[modulehash]"].

Definition has_fingerprint (template : string) : bool :=
  existsb (fun p => includes p template) fingerprint_placeholders.

(** ** The shape of the configuration object *)

Module Output.
Record t : Type := mk {
  path : string;
  filename : string;
  assetModuleFilename : string;
  clean : bool
}.
End Output.

Module Resolve.
Record t : Type := mk {
  extensions : list string
}.
End Resolve.

Module DevServer.
Record t : Type := mk {
  static : string;
  historyApiFallback : bool;
  port : nat;
  open : bool;
  hot : bool
}.
End DevServer.

(** An entry of a rule's [use]: a loader named by a string, or the loader
    that the stylesheet-extraction plugin exports as
    [MiniCssExtractPlugin.loader]. *)
Inductive Loader : Type :=
| LoaderName : string -> Loader
| MiniCssExtractPlugin_loader : Loader.

(** [use] is a single loader name or an array of loaders. *)
Inductive Use : Type :=
| UseOne : string -> Use
| UseChain : list Loader -> Use.

Module Generator.
Record t : Type := mk {
  filename : string
}.
End Generator.

Module Rule.
Record t : Type := mk {
  test : RegExp;
  use : option Use;
  exclude : option RegExp;
  type : option string;
  generator : option Generator.t
}.
End Rule.

Module ModuleOptions.
Record t : Type := mk {
  rules : list Rule.t
}.
End ModuleOptions.

Module Terser.
Record t : Type := mk {
  extractComments : bool
}.
End Terser.

Inductive Minimizer : Type :=
| TerserPlugin : Terser.t -> Minimizer
| CssMinimizerPlugin : Minimizer.

Module SplitChunks.
Record t : Type := mk {
  chunks : string
}.
End SplitChunks.

Module Optimization.
Record t : Type := mk {
  minimize : bool;
  minimizer : list Minimizer;
  splitChunks : SplitChunks.t
}.
End Optimization.

Module HtmlMinify.
Record t : Type := mk {
  removeComments : bool;
  collapseWhitespace : bool;
  removeRedundantAttributes : bool
}.
End HtmlMinify.

Module Html.
Record t : Type := mk {
  template : string;
  minify : OrFalse HtmlMinify.t
}.
End Html.

Module CssExtract.
Record t : Type := mk {
  filename : string
}.
End CssExtract.

Inductive Plugin : Type :=
| HtmlWebpackPlugin : Html.t -> Plugin
| MiniCssExtractPlugin : CssExtract.t -> Plugin.

Definition is_MiniCssExtractPlugin (p : Plugin) : bool :=
  match p with
  | MiniCssExtractPlugin _ => true
  | HtmlWebpackPlugin _ => false
  end.

Definition is_HtmlWebpackPlugin (p : Plugin) : bool :=
  match p with
  | HtmlWebpackPlugin _ => true
  | MiniCssExtractPlugin _ => false
  end.

Module Configuration.
Record t : Type := mk {
  entry : string;
  output : Output.t;
  resolve : Resolve.t;
  devtool : OrFalse string;
  devServer : DevServer.t;
  module : ModuleOptions.t;
  optimization : Optimization.t;
  plugins : list Plugin;
  mode : string
}.
End Configuration.

(** ** Reading the configuration *)

#[global] Instance RegExp_eq_dec : EqDecision RegExp.
Proof. solve_decision. Defined.

(** The patterns of a rule catalogue, in order. *)
Definition patterns (rs : list Rule.t) : list RegExp :=
  map Rule.test rs.

(** The first rule of a catalogue whose [test] is the given pattern. *)
Fixpoint rule_for (re : RegExp) (rs : list Rule.t) : option Rule.t :=
  match rs with
  | [] => None
  | r :: rest => if decide (Rule.test r = re) then Some r else rule_for re rest
  end.

(** The loaders a rule applies: the array of [use], a single name as a
    chain of one, nothing when the rule has no [use]. *)
Definition chain (r : Rule.t) : list Loader :=
  match Rule.use r with
  | Some (UseChain ls) => ls
  | Some (UseOne name) => [LoaderName name]
  | None => []
  end.

(** The file-name template a rule gives to the assets it emits. *)
Definition emitted_name (r : Rule.t) : option string :=
  match Rule.generator r with
  | Some g => Some (Generator.filename g)
  | None => None
  end.

(** Every file-name template for assets other than the script bundle: the
    default of [output] and the one of each rule that has a generator. *)
Definition asset_templates (c : Configuration.t) : list string :=
  Output.assetModuleFilename (Configuration.output c)
  :: omap emitted_name (ModuleOptions.rules (Configuration.module c)).

(** The patterns written in the file, by asset class. *)
Definition script_pattern : RegExp := mkRegExp "\.tsx?$" "".
Definition stylesheet_pattern : RegExp := mkRegExp "\.scss$" "".
Definition image_pattern : RegExp := mkRegExp "\.(png|jpe?g|gif|svg)$" "i".
Definition font_pattern : RegExp := mkRegExp "\.(woff|woff2|eot|ttf|otf)$" "i".

(** The transforms the configuration applies to stylesheets. *)
Definition stylesheet_chain (c : Configuration.t) : list Loader :=
  match rule_for stylesheet_pattern
          (ModuleOptions.rules (Configuration.module c)) with
  | Some r => chain r
  | None => []
  end.

(** ** Regular expressions

    The part of JavaScript's pattern syntax that the patterns of the
    repository are written in: literal characters, escaped syntax
    characters, groups with alternatives, [?] and [$]. A pattern made of
    these denotes a finite set of words, and [test] asks whether one of
    them occurs in the subject. Anything else in a pattern ([*], [+],
    classes, an unescaped dot, other flags than [i]) is outside the model
    and gives [None]. *)

Inductive Re : Type :=
| Lit : ascii -> Re
| Eos : Re
| Eps : Re
| Cat : Re -> Re -> Re
| Alt : Re -> Re -> Re
| Opt : Re -> Re.

(** The characters with a meaning of their own in a pattern. *)
Definition is_syntax_character (c : ascii) : bool :=
  bool_decide (c ∈ list_ascii_of_string "^$\.*+?()[]{}|").

(** A recursive-descent reader for the grammar
    [Disjunction ::= Alternative | Alternative "|" Disjunction],
    [Alternative ::= Term*], [Term ::= "$" | Atom | Atom "?"],
    [Atom ::= character | "\" syntax-character | "(" Disjunction ")"]. *)
Fixpoint parse_disjunction (fuel : nat) (cs : list ascii)
  : option (Re * list ascii) :=
  match fuel with
  | 0 => None
  | S n =>
    match parse_alternative n cs with
    | Some (a, ("|"%char :: rest)) =>
      match parse_disjunction n rest with
      | Some (d, rest') => Some (Alt a d, rest')
      | None => None
      end
    | other => other
    end
  end
with parse_alternative (fuel : nat) (cs : list ascii)
  : option (Re * list ascii) :=
  match fuel with
  | 0 => None
  | S n =>
    match cs with
    | [] => Some (Eps, [])
    | "|"%char :: _ => Some (Eps, cs)
    | ")"%char :: _ => Some (Eps, cs)
    | _ =>
      match parse_term n cs with
      | Some (t, rest) =>
        match parse_alternative n rest with
        | Some (a, rest') => Some (Cat t a, rest')
        | None => None
        end
      | None => None
      end
    end
  end
with parse_term (fuel : nat) (cs : list ascii)
  : option (Re * list ascii) :=
  match fuel with
  | 0 => None
  | S n =>
    match cs with
    | "$"%char :: rest => Some (Eos, rest)
    | _ =>
      match parse_atom n cs with
      | Some (a, ("?"%char :: "?"%char :: _)) => None
      | Some (a, ("?"%char :: rest)) => Some (Opt a, rest)
      | other => other
      end
    end
  end
with parse_atom (fuel : nat) (cs : list ascii)
  : option (Re * list ascii) :=
  match fuel with
  | 0 => None
  | S n =>
    match cs with
    | [] => None
    | "\"%char :: c :: rest =>
      if is_syntax_character c || bool_decide (c = "/"%char)
      then Some (Lit c, rest) else None
    | "("%char :: rest =>
      match parse_disjunction n rest with
      | Some (d, (")"%char :: rest')) => Some (d, rest')
      | _ => None
      end
    | c :: rest =>
      if is_syntax_character c then None else Some (Lit c, rest)
    end
  end.

(** The pattern of a source text, when all of the text is read. *)
Definition parse (src : string) : option Re :=
  let cs := list_ascii_of_string src in
  match parse_disjunction (4 * length cs + 4) cs with
  | Some (r, []) => Some r
  | _ => None
  end.

(** A word of a pattern: characters to find, and [End] where the subject
    has to be over. *)
Inductive Sym : Type :=
| Chr : ascii -> Sym
| End : Sym.

(** The words a pattern stands for. *)
Fixpoint words_of (r : Re) : list (list Sym) :=
  match r with
  | Lit c => [[Chr c]]
  | Eos => [[End]]
  | Eps => [[]]
  | Cat a b => w1 ← words_of a; w2 ← words_of b; [(w1 ++ w2)%list]
  | Alt a b => (words_of a ++ words_of b)%list
  | Opt a => (words_of a ++ [[]])%list
  end.

(** [toUpperCase] on one code unit of the ASCII range. *)
Definition upper (c : ascii) : ascii :=
  let n := nat_of_ascii c in
  if (97 <=? n)%nat && (n <=? 122)%nat then ascii_of_nat (n - 32) else c.

(** How two code units are compared: as they are, or in upper case when
    the pattern has the flag [i]. *)
Definition canonicalize (ignoreCase : bool) (c : ascii) : ascii :=
  if ignoreCase then upper c else c.

(** The word is found at the start of the subject. *)
Fixpoint match_word (ignoreCase : bool) (w : list Sym) (s : list ascii) : bool :=
  match w with
  | [] => true
  | End :: w' =>
    match s with
    | [] => match_word ignoreCase w' s
    | _ :: _ => false
    end
  | Chr c :: w' =>
    match s with
    | [] => false
    | d :: s' =>
      bool_decide (canonicalize ignoreCase c = canonicalize ignoreCase d)
      && match_word ignoreCase w' s'
    end
  end.

(** The word is found at some position of the subject. *)
Fixpoint occurs (ignoreCase : bool) (w : list Sym) (s : list ascii) : bool :=
  match_word ignoreCase w s ||
  match s with
  | [] => false
  | _ :: s' => occurs ignoreCase w s'
  end.

(** [re.test(s)]. *)
Definition RegExp_test (re : RegExp) (s : string) : option bool :=
  match parse (source re) with
  | None => None
  | Some r =>
    if bool_decide (flags re = "") || bool_decide (flags re = "i")
    then Some (existsb
                 (fun w => occurs (bool_decide (flags re = "i")) w
                             (list_ascii_of_string s))
                 (words_of r))
    else None
  end.

(** ** Patterns that test the end of a path *)

(** The code units of a string, compared as a pattern with or without the
    flag [i] compares them. *)
Local Abbreviation units := list_ascii_of_string.
Local Abbreviation fold ci s := (map (canonicalize ci) (units s)).

(** A word that is literal text followed by the end of the subject. *)
Definition anchor (e : string) : list Sym :=
  (map Chr (units e) ++ [End])%list.

(** The pattern is in the model and its words are these ends. *)
Definition tests_ends (re : RegExp) (es : list string) : Prop :=
  (flags re = "" \/ flags re = "i")
  /\ exists r, parse (source re) = Some r /\ words_of r = map anchor es.

(** Some end of one list is, after folding, the tail of an end of the
    other list, or the other way round. *)
Definition clash (ci : bool) (es1 es2 : list string) : bool :=
  existsb (fun e1 =>
    existsb (fun e2 =>
      bool_decide (fold ci e1 `suffix_of` fold ci e2)
      || bool_decide (fold ci e2 `suffix_of` fold ci e1)) es2) es1.

(** ** Which rule handles a resource *)

(** The bundler applies a rule to a resource when the path of the resource
    passes [test] and does not pass [exclude]. *)
Definition applies (r : Rule.t) (resource : string) : option bool :=
  match RegExp_test (Rule.test r) resource with
  | None => None
  | Some hit =>
    match Rule.exclude r with
    | None => Some hit
    | Some ex =>
      match RegExp_test ex resource with
      | None => None
      | Some out => Some (hit && negb out)
      end
    end
  end.

(** The rules of a catalogue that apply to a resource, in order. *)
Definition matching (rs : list Rule.t) (resource : string) : list Rule.t :=
  filter (fun r => applies r resource = Some true) rs.

(** [s.toUpperCase()] on ASCII text. *)
Definition upcase (s : string) : string :=
  string_of_list_ascii (map upper (list_ascii_of_string s)).

#[global] Instance Loader_eq_dec : EqDecision Loader.
Proof. solve_decision. Defined.

(** ** Every name the build writes *)

(** The file-name templates of the stylesheets that the plugins extract. *)
Definition stylesheet_templates (c : Configuration.t) : list string :=
  omap (fun p => match p with
                 | MiniCssExtractPlugin o => Some (CssExtract.filename o)
                 | HtmlWebpackPlugin _ => None
                 end)
       (Configuration.plugins c).

(** The file-name templates of everything the build writes but the page:
    the script bundle, the extracted stylesheets, the other assets. *)
Definition output_templates (c : Configuration.t) : list string :=
  (Output.filename (Configuration.output c)
   :: stylesheet_templates c ++ asset_templates c)%list.

(** The options of the markup-template plugin, when it is registered. *)
Definition html_options (c : Configuration.t) : option Html.t :=
  head (omap (fun p => match p with
                       | HtmlWebpackPlugin o => Some o
                       | MiniCssExtractPlugin _ => None
                       end)
             (Configuration.plugins c)).

(** ** The test runner *)

Module Jest.
Record t : Type := mk {
  preset : string;
  testEnvironment : string;
  setupFilesAfterEnv : list string;
  testMatch : list string;
  moduleNameMapper : list (string * string)
}.
End Jest.

(** The object that the configuration file of the test runner exports.
    The keys of [moduleNameMapper] are kept in the order of the file. *)
Definition jest_config : Jest.t :=
  {| Jest.preset := "ts-jest";
     Jest.testEnvironment := "jsdom";
     Jest.setupFilesAfterEnv := ["<rootDir>/jest.setup.ts"];
     Jest.testMatch := ["<rootDir>/tests/**/*.test.ts?(x)"];
     Jest.moduleNameMapper :=
       [ ("\.(css|scss|sass)$", "identity-obj-proxy");
         ("\.(png|jpg|jpeg|gif|svg)$",
          "<rootDir>/test-utils/mocks/fileMock.js") ] |}.

(** What the test runner loads in place of a module: the target of the
    first key of the mapper that, read as a pattern without flags, passes
    on the name of the module; nothing when no key does. *)
Fixpoint mapped (mapper : list (string * string)) (name : string)
  : option (option string) :=
  match mapper with
  | [] => Some None
  | (key, target) :: rest =>
    match RegExp_test (mkRegExp key "") name with
    | None => None
    | Some true => Some (Some target)
    | Some false => mapped rest name
    end
  end.

(** ** The reducers of the notes: the cart *)

Section Cart.

(** Identifiers are compared with [===], of which nothing is assumed: an
    identifier need not be equal to itself, as [NaN] is not. Prices are
    numbers added with [+], starting from [0]. *)
Context {Id : Type}.
Variable strict_eq : Id -> Id -> bool.
Context {Num : Type}.
Variable plus : Num -> Num -> Num.
Variable zero : Num.

Record CartItem : Type := mkCartItem {
  item_id : Id;
  price : Num
}.

Record CartState : Type := mkCartState {
  items : list CartItem;
  total : Num
}.

(** An action by its [type]; any other [type] falls to [default]. *)
Inductive CartAction : Type :=
| ADD_ITEM : CartItem -> CartAction
| REMOVE_ITEM : Id -> CartAction
| CartOther : string -> CartAction.

(** [l.reduce((sum, item) => sum + item.price, 0)]. *)
Definition sum_prices (l : list CartItem) : Num :=
  fold_left (fun sum item => plus sum (price item)) l zero.

Definition cart_initialState : CartState :=
  {| items := []; total := zero |}.

Definition cartReducer (state : CartState) (action : CartAction)
  : CartState :=
  match action with
  | ADD_ITEM payload =>
    let updatedItems := (items state ++ [payload])%list in
    let updatedTotal := sum_prices updatedItems in
    {| items := updatedItems; total := updatedTotal |}
  | REMOVE_ITEM payload =>
    let filteredItems :=
      List.filter (fun item => negb (strict_eq (item_id item) payload))
                  (items state) in
    let newTotal := sum_prices filteredItems in
    {| items := filteredItems; total := newTotal |}
  | CartOther _ => state
  end.

(** The total is the sum of the prices of the items. *)
Definition cart_consistent (state : CartState) : Prop :=
  total state = sum_prices (items state).

End Cart.

Arguments CartItem : clear implicits.
Arguments CartState : clear implicits.
Arguments CartAction : clear implicits.

(** ** The reducers of the notes: the toggle *)

(** A state object holds a flag and a reference to its [history] array;
    the arrays live in a store, so that what [pop] does to an array is
    seen through every state that refers to it. *)
Record ToggleState : Type := mkToggleState {
  isOn : bool;
  history : positive
}.

Inductive ToggleAction : Type :=
| TOGGLE : ToggleAction
| UNDO : ToggleAction
| ToggleOther : string -> ToggleAction.

(** An array literal: a new array in the store. *)
Definition array_new (store : gmap positive (list bool))
    (contents : list bool) : positive * gmap positive (list bool) :=
  let l := fresh (dom store) in (l, <[l := contents]> store).

(** [toggleReducer(state, action)], with the store before and after.
    [None] stands for the error of reading a [history] that is no array. *)
Definition toggleReducer (store : gmap positive (list bool))
    (state : ToggleState) (action : ToggleAction)
  : option (ToggleState * gmap positive (list bool)) :=
  match action with
  | TOGGLE =>
    match store !! history state with
    | None => None
    | Some h =>
      let '(l, store') := array_new store (h ++ [isOn state])%list in
      Some ({| isOn := negb (isOn state); history := l |}, store')
    end
  | UNDO =>
    match store !! history state with
    | None => None
    | Some h =>
      let popped := last h in
      let store1 := <[history state := removelast h]> store in
      let '(l, store2) := array_new store1 (removelast h) in
      Some ({| isOn := default (isOn state) popped; history := l |}, store2)
    end
  | ToggleOther _ => Some (state, store)
  end.

(** ** What a module can do to its process *)

(** The process as a module sees it: the environment variables, and a
    clock that stands for every reading that differs from one evaluation
    to the next ([Date.now()], [Math.random()], a counter in a module
    scope). *)
Record World : Type := mkWorld {
  process_env : gmap string string;
  clock : nat
}.

(** A module body, by what it does to the process before it has its
    exports: read a variable ([process.env.NAME]), assign one, delete one,
    read the clock. *)
Inductive Program (A : Type) : Type :=
| Return : A -> Program A
| ReadEnv : string -> (option string -> Program A) -> Program A
| WriteEnv : string -> string -> Program A -> Program A
| DeleteEnv : string -> Program A -> Program A
| Tick : (nat -> Program A) -> Program A.

Arguments Return {A} _.
Arguments ReadEnv {A} _ _.
Arguments WriteEnv {A} _ _ _.
Arguments DeleteEnv {A} _ _.
Arguments Tick {A} _.

(** Running a module body in a world: the exports and the world it
    leaves. *)
Fixpoint run {A : Type} (p : Program A) (w : World) : A * World :=
  match p with
  | Return a => (a, w)
  | ReadEnv name k => run (k (process_env w !! name)) w
  | WriteEnv name value k =>
    run k (mkWorld (<[name := value]> (process_env w)) (clock w))
  | DeleteEnv name k =>
    run k (mkWorld (delete name (process_env w)) (clock w))
  | Tick k => run (k (clock w)) (mkWorld (process_env w) (S (clock w)))
  end.

(** A module body that does nothing but read variables among [names]. *)
Inductive ReadsOnly {A : Type} (names : list string) : Program A -> Prop :=
| ReadsOnly_Return (a : A) : ReadsOnly names (Return a)
| ReadsOnly_ReadEnv (name : string) (k : option string -> Program A) :
    In name names ->
    (forall v, ReadsOnly names (k v)) ->
    ReadsOnly names (ReadEnv name k).

(** ** A host to run the configuration on *)

(** What [path.resolve] returns when its first argument is an absolute,
    normalised directory and the others are plain names: the names
    appended to the directory with [/] between them, the root directory
    [/] not getting a second [/]. *)
Definition join_segments (segments : list string) : string :=
  match segments with
  | dir :: names =>
    if String.eqb dir "/" then "/" +:+ String.concat "/" names
    else String.concat "/" segments
  | [] => String.concat "/" segments
  end.

Definition checkout_dir : string := "/home/dev/react-webpack".

(** Two process environments of a development build: one that says so and
    carries an unrelated variable, one that sets nothing. *)
Definition env_development : gmap string string :=
  <["PORT" := "8080"]> (<["NODE_ENV" := "development"]> ∅).

Definition env_unset : gmap string string := ∅.

Definition env_production : gmap string string :=
  <["NODE_ENV" := "production"]> ∅.

(** ** The environment flag *)

(** [process.env.NODE_ENV === "production"]: a variable that is not set
    reads as [undefined], which is not strictly equal to any string. *)
Definition isProduction (env : gmap string string) : bool :=
  bool_decide (env !! "NODE_ENV" = Some "production").

(** ** The exported object *)

Section Host.

(** What Node supplies to the module: the directory of the file and
    [path.resolve]. *)
Variable __dirname : string.
Variable path_resolve : list string -> string.

(** The four rules of [module.rules], in the order of the file. *)
Definition rules (isProduction : bool) : list Rule.t :=
  [ {| Rule.test := mkRegExp "\.tsx?$" "";
       Rule.use := Some (UseOne "ts-loader");
       Rule.exclude := Some (mkRegExp "node_modules" "");
       Rule.type := None;
       Rule.generator := None |};
    {| Rule.test := mkRegExp "\.scss$" "";
       Rule.use := Some (UseChain
         [ if isProduction then MiniCssExtractPlugin_loader
           else LoaderName "style-loader";
           LoaderName "css-loader";
           LoaderName "sass-loader" ]);
       Rule.exclude := None;
       Rule.type := None;
       Rule.generator := None |};
    {| Rule.test := mkRegExp "\.(png|jpe?g|gif|svg)$" "i";
       Rule.use := None;
       Rule.exclude := None;
       Rule.type := Some "asset/resource";
       Rule.generator :=
         Some {| Generator.filename := "images/[name].[hash][ext]" |} |};
    {| Rule.test := mkRegExp "\.(woff|woff2|eot|ttf|otf)$" "i";
       Rule.use := None;
       Rule.exclude := None;
       Rule.type := Some "asset/resource";
       Rule.generator :=
         Some {| Generator.filename := "fonts/[name].[hash][ext]" |} |} ].

(** The object literal assigned to [module.exports], with the constant
    [isProduction] of the file as its argument. *)
Definition configuration (isProduction : bool) : Configuration.t :=
  {| Configuration.entry := "./src/index.tsx";
     Configuration.output :=
       {| Output.path := path_resolve [__dirname; "dist"];
          Output.filename :=
            if isProduction then "js/[name].[contenthash].js"
            else "js/[name].bundle.js";
          Output.assetModuleFilename := "assets/[hash][ext][query]";
          Output.clean := true |};
     Configuration.resolve :=
       {| Resolve.extensions := [".tsx"; ".ts"; ".js"] |};
     Configuration.devtool :=
       if isProduction then JsFalse else JsValue "source-map";
     Configuration.devServer :=
       {| DevServer.static := path_resolve [__dirname; "public"];
          DevServer.historyApiFallback := true;
          DevServer.port := 3000;
          DevServer.open := true;
          DevServer.hot := true |};
     Configuration.module :=
       {| ModuleOptions.rules := rules isProduction |};
     Configuration.optimization :=
       {| Optimization.minimize := isProduction;
          Optimization.minimizer :=
            [ TerserPlugin {| Terser.extractComments := false |};
              CssMinimizerPlugin ];
          Optimization.splitChunks := {| SplitChunks.chunks := "all" |} |};
     Configuration.plugins :=
       HtmlWebpackPlugin
         {| Html.template := "./public/index.html";
            Html.minify :=
              if isProduction
              then JsValue {| HtmlMinify.removeComments := true;
                              HtmlMinify.collapseWhitespace := true;
                              HtmlMinify.removeRedundantAttributes := true |}
              else JsFalse |}
       :: (if isProduction
           then [ MiniCssExtractPlugin
                    {| CssExtract.filename :=
                         "css/[name].[contenthash].css" |} ]
           else []);
     Configuration.mode :=
       if isProduction then "production" else "development" |}.

(** Evaluating the module in a process whose environment is [env]: the
    exports, and the environment as the evaluation leaves it. The file
    reads [process.env.NODE_ENV] and assigns nothing. *)
Definition evaluate (env : gmap string string)
  : Configuration.t * gmap string string :=
  (configuration (isProduction env), env).

Definition module_exports (env : gmap string string) : Configuration.t :=
  fst (evaluate env).

(** The body of [webpack.config.js]: line 7 reads [process.env.NODE_ENV]
    and compares it with [production], and the object literal of lines 9
    to 87 is the exports. *)
Definition webpack_config : Program Configuration.t :=
  ReadEnv "NODE_ENV" (fun NODE_ENV =>
    let isProduction := bool_decide (NODE_ENV = Some "production") in
    Return (configuration isProduction)).

(** ** Properties of the derived policies *)

Import Configuration.

Lemma module_exports_unfold (env : gmap string string) :
  module_exports env = configuration (isProduction env).
Proof. reflexivity. Qed.

(** C1 (as amended): in production and in development alike the minimizer
    chain holds exactly two entries, the script minimizer followed by the
    stylesheet minimizer; what follows the build mode is [minimize], which
    is true exactly in production. *)
Theorem minimizer_chain_fixed (m : bool) :
  let o := optimization (configuration m) in
  Optimization.minimizer o
    = [TerserPlugin (Terser.mk false); CssMinimizerPlugin]
  /\ length (Optimization.minimizer o) = 2
  /\ Optimization.minimize o = m.
Proof.
  cbv zeta. unfold configuration; simpl. auto.
Qed.

(** C2: the stylesheet-extraction plugin is in the plugin list exactly in
    production; the list is the markup-template plugin followed by the
    stylesheet-extraction plugin (length 2) in production and the
    markup-template plugin alone (length 1) in development. *)
Theorem plugins_by_mode (m : bool) :
  let ps := plugins (configuration m) in
  existsb is_MiniCssExtractPlugin ps = m
  /\ length ps = (if m then 2 else 1)
  /\ map is_HtmlWebpackPlugin ps = (if m then [true; false] else [true])
  /\ map is_MiniCssExtractPlugin ps = (if m then [false; true] else [false]).
Proof.
  case m; cbn; repeat split.
Qed.

(** C3: the bundle file-name template of [output] contains a
    content-fingerprint placeholder exactly in production; in development
    it is the stable name [js/[name].bundle.js]. *)
Theorem bundle_name_fingerprint (m : bool) :
  has_fingerprint (Output.filename (output (configuration m))) = m
  /\ Output.filename (output (configuration m))
     = (if m then "js/[name].[contenthash].js" else "js/[name].bundle.js").
Proof.
  destruct m; split; vm_compute; reflexivity.
Qed.

(** C4: source maps are generated exactly in development: [devtool] is
    [false] in production and the option [source-map] in development. *)
Theorem devtool_by_mode (m : bool) :
  is_enabled (devtool (configuration m)) = negb m
  /\ devtool (configuration m)
     = (if m then JsFalse else JsValue "source-map").
Proof.
  unfold configuration; simpl. destruct m; simpl; split; reflexivity.
Qed.

(** C5: [optimization.minimize] is the production flag, for the flag as a
    value and for the flag as read from the process environment. *)
Theorem minimize_is_production_flag (m : bool) (env : gmap string string) :
  Optimization.minimize (optimization (configuration m)) = m
  /\ Optimization.minimize (optimization (module_exports env))
     = isProduction env.
Proof.
  rewrite module_exports_unfold. split; reflexivity.
Qed.

(** C6: the stylesheet rule applies three transforms; the first is the
    extraction loader exactly in production and the style-injection loader
    exactly in development, and the other two, CSS resolution then Sass
    compilation, are the same in both modes. *)
Theorem stylesheet_chain_by_mode (m : bool) :
  let ls := stylesheet_chain (configuration m) in
  (head ls = Some MiniCssExtractPlugin_loader <-> m = true)
  /\ (head ls = Some (LoaderName "style-loader") <-> m = false)
  /\ tail ls = [LoaderName "css-loader"; LoaderName "sass-loader"]
  /\ tail ls = tail (stylesheet_chain (configuration (negb m))).
Proof.
  cbv zeta.
  assert (Hchain : forall b,
    stylesheet_chain (configuration b)
    = (if b then MiniCssExtractPlugin_loader else LoaderName "style-loader")
      :: [LoaderName "css-loader"; LoaderName "sass-loader"]).
  { intros b. vm_compute. reflexivity. }
  rewrite !Hchain. simpl.
  destruct m; repeat split; intros H; try reflexivity; try discriminate H;
    inversion H.
Qed.

(** C7: whatever the build mode, the rule catalogue is the same four
    asset-class rules by pattern: scripts with types, stylesheets, raster
    images, fonts; the patterns are pairwise different, and the rules for
    scripts, images and fonts are the same rule in both modes. *)
Theorem catalogue_mode_invariant (m : bool) :
  let rs := ModuleOptions.rules (module (configuration m)) in
  let rs' := ModuleOptions.rules (module (configuration (negb m))) in
  patterns rs
    = [script_pattern; stylesheet_pattern; image_pattern; font_pattern]
  /\ patterns rs = patterns rs'
  /\ length rs = 4
  /\ NoDup (patterns rs)
  /\ rule_for script_pattern rs = rule_for script_pattern rs'
  /\ rule_for image_pattern rs = rule_for image_pattern rs'
  /\ rule_for font_pattern rs = rule_for font_pattern rs'.
Proof.
  cbv zeta.
  assert (Hpat : forall b, patterns (ModuleOptions.rules (module (configuration b)))
                 = [script_pattern; stylesheet_pattern; image_pattern; font_pattern])
    by (intros b; reflexivity).
  rewrite !Hpat.
  split; [reflexivity|]. split; [reflexivity|]. split; [reflexivity|].
  split.
  - apply (bool_decide_unpack _). vm_compute. exact I.
  - destruct m; vm_compute; auto.
Qed.

(** C8: the dev-server policy does not depend on the build mode: root
    directory, port 3000, auto-open, hot reload and history fallback are
    the same for any two modes, and the history fallback is always on. *)
Theorem devServer_mode_invariant (m m' : bool) :
  devServer (configuration m) = devServer (configuration m')
  /\ DevServer.historyApiFallback (devServer (configuration m)) = true
  /\ devServer (configuration m)
     = DevServer.mk (path_resolve [__dirname; "public"]) true 3000 true true.
Proof.
  repeat split.
Qed.

(** A body that only reads leaves the world as it found it. *)
Lemma run_ReadsOnly_world {A : Type} (names : list string) (p : Program A)
    (w : World) :
  ReadsOnly names p -> snd (run p w) = w.
Proof.
  intros Hp. induction Hp as [a | name k _ _ IH]; simpl.
  - reflexivity.
  - apply IH.
Qed.

(** Its exports are the same in two worlds that agree on the variables it
    may read, whatever else differs between them. *)
Lemma run_ReadsOnly_exports {A : Type} (names : list string)
    (p : Program A) (w1 w2 : World) :
  ReadsOnly names p ->
  (forall name, In name names ->
     process_env w1 !! name = process_env w2 !! name) ->
  fst (run p w1) = fst (run p w2).
Proof.
  intros Hp Hagree. induction Hp as [a | name k Hin _ IH]; simpl.
  - reflexivity.
  - rewrite (Hagree name Hin). apply IH.
Qed.

Lemma webpack_config_reads : ReadsOnly ["NODE_ENV"] webpack_config.
Proof.
  apply ReadsOnly_ReadEnv.
  - left. reflexivity.
  - intros v. apply ReadsOnly_Return.
Qed.

Lemma webpack_config_exports (w : World) :
  fst (run webpack_config w) = module_exports (process_env w).
Proof. reflexivity. Qed.

(** C9: the derivation is a function of the build mode alone and leaves
    the process as it found it. The body of the module does nothing to
    the process but read [NODE_ENV]; so in two worlds with the same build
    mode, whatever their other variables and their clocks, the exports are
    the same; the world after the evaluation is the world before it; and
    a second evaluation, in the world the first one left, gives the same
    exports again. *)
Theorem derivation_pure (w1 w2 : World) :
  (process_env w1 !! "NODE_ENV" = Some "production"
   <-> process_env w2 !! "NODE_ENV" = Some "production") ->
  ReadsOnly ["NODE_ENV"] webpack_config
  /\ fst (run webpack_config w1) = fst (run webpack_config w2)
  /\ snd (run webpack_config w1) = w1
  /\ fst (run webpack_config (snd (run webpack_config w1)))
     = fst (run webpack_config w1).
Proof.
  intros Hmode.
  pose proof webpack_config_reads as Hreads.
  split; [exact Hreads|]. split.
  - rewrite !webpack_config_exports, !module_exports_unfold.
    unfold isProduction. f_equal. apply bool_decide_ext, Hmode.
  - split.
    + apply (run_ReadsOnly_world _ _ _ Hreads).
    + rewrite (run_ReadsOnly_world _ _ _ Hreads). reflexivity.
Qed.

(** C10: in every build mode, development included, the file names of the
    assets other than the script bundle carry a hash placeholder: the
    asset template of [output] and the templates of the image rule and of
    the font rule; the name without a fingerprint in development is that
    of the script bundle only. *)
Theorem asset_names_fingerprinted (m : bool) :
  let c := configuration m in
  let rs := ModuleOptions.rules (module c) in
  has_fingerprint (Output.assetModuleFilename (output c)) = true
  /\ (rule_for image_pattern rs ≫= emitted_name)
     = Some "images/[name].[hash][ext]"
  /\ (rule_for font_pattern rs ≫= emitted_name)
     = Some "fonts/[name].[hash][ext]"
  /\ asset_templates c
     = ["assets/[hash][ext][query]"; "images/[name].[hash][ext]";
        "fonts/[name].[hash][ext]"]
  /\ forallb has_fingerprint (asset_templates c) = true
  /\ forallb (includes "[hash]") (asset_templates c) = true
  /\ has_fingerprint (Output.filename (output (configuration false))) = false.
Proof.
  cbv zeta.
  assert (Hts : asset_templates (configuration m)
                = ["assets/[hash][ext][query]"; "images/[name].[hash][ext]";
                   "fonts/[name].[hash][ext]"])
    by (destruct m; reflexivity).
  rewrite Hts.
  destruct m; vm_compute; repeat split.
Qed.

End Host.

(** ** The properties on a concrete host *)

(** C1 (as stated) fails in development: [minimize] is off and the
    minimizer chain still holds its two entries, so the chain is populated
    without [minimize] being true. *)
Lemma minimizer_chain_development :
  let o := Configuration.optimization
             (configuration checkout_dir join_segments false) in
  Optimization.minimize o = false
  /\ length (Optimization.minimizer o) = 2
  /\ Optimization.minimizer o <> []
  /\ ~ (Optimization.minimizer o <> [] <-> Optimization.minimize o = true).
Proof.
  cbv zeta. simpl.
  split; [reflexivity|]. split; [reflexivity|].
  split; [discriminate|].
  intros [Hpop _]. specialize (Hpop ltac:(discriminate)). discriminate Hpop.
Qed.

(** C9 at two development worlds that differ in their variables and in
    their clocks. *)
Lemma derivation_pure_witness :
  let w1 := mkWorld env_development 3 in
  let w2 := mkWorld env_unset 8 in
  (process_env w1 !! "NODE_ENV" = Some "production"
   <-> process_env w2 !! "NODE_ENV" = Some "production")
  /\ w1 <> w2
  /\ ReadsOnly ["NODE_ENV"] (webpack_config checkout_dir join_segments)
  /\ fst (run (webpack_config checkout_dir join_segments) w1)
     = fst (run (webpack_config checkout_dir join_segments) w2)
  /\ snd (run (webpack_config checkout_dir join_segments) w1) = w1
  /\ fst (run (webpack_config checkout_dir join_segments)
            (snd (run (webpack_config checkout_dir join_segments) w1)))
     = fst (run (webpack_config checkout_dir join_segments) w1).
Proof.
  cbv zeta.
  assert (Hmode : process_env (mkWorld env_development 3) !! "NODE_ENV"
                  = Some "production"
                  <-> process_env (mkWorld env_unset 8) !! "NODE_ENV"
                      = Some "production").
  { vm_compute. split; intros H; discriminate H. }
  split; [exact Hmode|].
  split; [intros H; discriminate H|].
  exact (derivation_pure checkout_dir join_segments
           (mkWorld env_development 3) (mkWorld env_unset 8) Hmode).
Defined.

(** ** The theory of patterns that test the end of a path *)

Lemma units_app (s1 s2 : string) :
  units (s1 +:+ s2) = (units s1 ++ units s2)%list.
Proof.
  induction s1 as [|c s1 IH]; simpl; [reflexivity|]. now rewrite IH.
Qed.

Lemma upper_idemp (c : ascii) : upper (upper c) = upper c.
Proof.
  destruct c as [[] [] [] [] [] [] [] []]; vm_compute; reflexivity.
Qed.

Lemma upper_canonicalize (ci : bool) (c : ascii) :
  upper (canonicalize ci c) = upper c.
Proof.
  destruct ci; simpl; [apply upper_idemp | reflexivity].
Qed.

Lemma map_upper_canonicalize (ci : bool) (l : list ascii) :
  map upper (map (canonicalize ci) l) = map upper l.
Proof.
  rewrite map_map. apply map_ext. intros c. apply upper_canonicalize.
Qed.

Lemma match_word_anchor (ci : bool) (e s : list ascii) :
  match_word ci (map Chr e ++ [End])%list s = true
  <-> map (canonicalize ci) e = map (canonicalize ci) s.
Proof.
  revert s. induction e as [|c e IH]; intros [|d s]; simpl.
  - split; reflexivity.
  - split; discriminate.
  - split; discriminate.
  - rewrite andb_true_iff, bool_decide_eq_true, IH.
    split.
    + intros [-> ->]. reflexivity.
    + intros H. injection H as H1 H2. split; assumption.
Qed.

Lemma occurs_anchor (ci : bool) (e s : list ascii) :
  occurs ci (map Chr e ++ [End])%list s = true
  <-> map (canonicalize ci) e `suffix_of` map (canonicalize ci) s.
Proof.
  induction s as [|d s IH]; simpl occurs.
  - rewrite orb_false_r, match_word_anchor. simpl. split.
    + intros ->. reflexivity.
    + intros H. apply suffix_nil_inv in H. exact H.
  - rewrite orb_true_iff, match_word_anchor, IH. simpl map. split.
    + intros [-> | H]; [reflexivity | apply suffix_cons_r, H].
    + intros [k Hk]. destruct k as [|x k]; simpl in Hk.
      * left. symmetry. exact Hk.
      * right. injection Hk as _ Hk. exists k. exact Hk.
Qed.

(** A suffix of the folded units of a string is the fold of an end of the
    string. *)
Lemma suffix_fold_inv (ci : bool) (l : list ascii) (s : string) :
  l `suffix_of` fold ci s ->
  exists stem x, s = stem +:+ x /\ fold ci x = l.
Proof.
  intros [k Hk].
  exists (string_of_list_ascii (take (length k) (units s))),
         (string_of_list_ascii (drop (length k) (units s))).
  split.
  - rewrite <- (string_of_list_ascii_of_string s) at 1.
    rewrite <- (take_drop (length k) (units s)) at 1.
    generalize (take (length k) (units s)) (drop (length k) (units s)).
    intros a b. induction a as [|c a IH]; simpl; [reflexivity|].
    now rewrite IH.
  - rewrite list_ascii_of_string_of_list_ascii.
    rewrite <- skipn_map.
    rewrite Hk. rewrite drop_app_length. reflexivity.
Qed.

Lemma fold_suffix_app (ci : bool) (stem x : string) :
  fold ci x `suffix_of` fold ci (stem +:+ x).
Proof.
  rewrite units_app, map_app. eexists. reflexivity.
Qed.

(** What a pattern tests when its words are ends of the subject. *)
Lemma test_anchored (re : RegExp) (r : Re) (es : list string) (s : string) :
  parse (source re) = Some r ->
  words_of r = map anchor es ->
  flags re = "" \/ flags re = "i" ->
  let ci := bool_decide (flags re = "i") in
  exists b, RegExp_test re s = Some b
    /\ (b = true <-> exists e, In e es /\ fold ci e `suffix_of` fold ci s).
Proof.
  intros Hp Hw Hf ci. unfold RegExp_test. rewrite Hp, Hw.
  assert (Hok : bool_decide (flags re = "") || bool_decide (flags re = "i")
                = true).
  { destruct Hf as [-> | ->]; reflexivity. }
  rewrite Hok. eexists; split; [reflexivity|].
  fold ci. rewrite existsb_exists. split.
  - intros (w & Hin & Hocc). apply in_map_iff in Hin as (e & <- & Hin).
    exists e. split; [exact Hin|]. apply occurs_anchor, Hocc.
  - intros (e & Hin & Hsuf). exists (anchor e). split.
    + apply in_map, Hin.
    + apply occurs_anchor, Hsuf.
Qed.

Ltac tests_ends_by_evaluation :=
  split; [ (left; reflexivity) || (right; reflexivity)
         | eexists; split; vm_compute; reflexivity ].

Lemma script_pattern_ends : tests_ends script_pattern [".tsx"; ".ts"].
Proof. tests_ends_by_evaluation. Qed.

Lemma stylesheet_pattern_ends : tests_ends stylesheet_pattern [".scss"].
Proof. tests_ends_by_evaluation. Qed.

Lemma image_pattern_ends :
  tests_ends image_pattern [".png"; ".jpeg"; ".jpg"; ".gif"; ".svg"].
Proof. tests_ends_by_evaluation. Qed.

Lemma font_pattern_ends :
  tests_ends font_pattern [".woff"; ".woff2"; ".eot"; ".ttf"; ".otf"].
Proof. tests_ends_by_evaluation. Qed.

Lemma tests_ends_total (re : RegExp) (es : list string) (s : string) :
  tests_ends re es ->
  exists b, RegExp_test re s = Some b
    /\ (b = true <-> exists e, In e es
          /\ fold (bool_decide (flags re = "i")) e
             `suffix_of` fold (bool_decide (flags re = "i")) s).
Proof.
  intros (Hf & r & Hp & Hw). exact (test_anchored re r es s Hp Hw Hf).
Qed.

Lemma suffix_map {A B : Type} (f : A -> B) (l1 l2 : list A) :
  l1 `suffix_of` l2 -> map f l1 `suffix_of` map f l2.
Proof.
  intros [k ->]. rewrite map_app. eexists. reflexivity.
Qed.

(** A hit of a pattern, whatever its flags, leaves a trace in upper case. *)
Lemma hit_upper (re : RegExp) (es : list string) (s : string) :
  tests_ends re es ->
  RegExp_test re s = Some true ->
  exists e, In e es /\ fold true e `suffix_of` fold true s.
Proof.
  intros Hre Hhit.
  destruct (tests_ends_total re es s Hre) as (b & Hb & Hiff).
  rewrite Hhit in Hb. injection Hb as <-.
  destruct Hiff as [Hiff _]. destruct (Hiff eq_refl) as (e & Hin & Hsuf).
  exists e. split; [exact Hin|].
  apply (suffix_map upper) in Hsuf.
  rewrite !map_upper_canonicalize in Hsuf. exact Hsuf.
Qed.

Lemma clash_false (ci : bool) (es1 es2 : list string) (e1 e2 : string)
    (l : list ascii) :
  clash ci es1 es2 = false ->
  In e1 es1 -> In e2 es2 ->
  fold ci e1 `suffix_of` l -> fold ci e2 `suffix_of` l -> False.
Proof.
  intros Hc H1 H2 S1 S2.
  assert (Hcl : clash ci es1 es2 = true); [|congruence].
  unfold clash. apply existsb_exists. exists e1. split; [exact H1|].
  apply existsb_exists. exists e2. split; [exact H2|].
  apply orb_true_iff.
  destruct (suffix_weak_total _ _ _ S1 S2) as [H | H];
    [left | right]; apply bool_decide_eq_true; exact H.
Qed.

(** Two patterns whose ends do not clash never hit the same subject. *)
Lemma hits_exclusive (re1 re2 : RegExp) (es1 es2 : list string) (s : string) :
  tests_ends re1 es1 -> tests_ends re2 es2 -> clash true es1 es2 = false ->
  RegExp_test re1 s = Some true -> RegExp_test re2 s = Some true -> False.
Proof.
  intros T1 T2 Hc H1 H2.
  destruct (hit_upper _ _ _ T1 H1) as (e1 & I1 & S1).
  destruct (hit_upper _ _ _ T2 H2) as (e2 & I2 & S2).
  exact (clash_false _ _ _ _ _ _ Hc I1 I2 S1 S2).
Qed.

(** A subject with an end that clashes with none of the ends of a pattern
    is not hit. *)
Lemma end_not_hit (re : RegExp) (es : list string) (stem x : string) :
  tests_ends re es ->
  clash (bool_decide (flags re = "i")) es [x] = false ->
  RegExp_test re (stem +:+ x) = Some false.
Proof.
  intros T Hc.
  destruct (tests_ends_total re es (stem +:+ x) T) as (b & Hb & Hiff).
  destruct b; [|exact Hb]. exfalso.
  destruct Hiff as [Hiff _]. destruct (Hiff eq_refl) as (e & I & S).
  refine (clash_false _ es [x] e x _ Hc I _ S _); [left; reflexivity|].
  apply fold_suffix_app.
Qed.

(** A subject that ends in one of the ends of a pattern is hit. *)
Lemma end_hit (re : RegExp) (es : list string) (stem x e : string) :
  tests_ends re es -> In e es ->
  fold (bool_decide (flags re = "i")) x
  = fold (bool_decide (flags re = "i")) e ->
  RegExp_test re (stem +:+ x) = Some true.
Proof.
  intros T I Hx.
  destruct (tests_ends_total re es (stem +:+ x) T) as (b & Hb & Hiff).
  rewrite Hb. f_equal. apply Hiff. exists e. split; [exact I|].
  rewrite <- Hx. apply fold_suffix_app.
Qed.

(** ** Patterns that are plain text *)

Lemma match_word_literal (e s : string) :
  match_word false (map Chr (units e)) (units s) = String.prefix e s.
Proof.
  revert s. induction e as [|c e IH]; intros [|d s]; simpl; try reflexivity.
  destruct (ascii_dec c d) as [Heq | Hne].
  - rewrite (bool_decide_eq_true_2 _ Heq). simpl. apply IH.
  - rewrite (bool_decide_eq_false_2 _ Hne). reflexivity.
Qed.

Lemma occurs_literal (e s : string) :
  occurs false (map Chr (units e)) (units s) = includes e s.
Proof.
  induction s as [|d s IH]; cbn [includes].
  - rewrite <- match_word_literal. reflexivity.
  - rewrite <- IH, <- match_word_literal. reflexivity.
Qed.

(** With no flag a pattern hits the subjects that end in one of its ends. *)
Lemma sensitive_hit (re : RegExp) (es : list string) (s : string) :
  tests_ends re es -> flags re = "" ->
  exists b, RegExp_test re s = Some b
    /\ (b = true <-> exists stem e, In e es /\ s = stem +:+ e).
Proof.
  intros T Hf.
  destruct (tests_ends_total re es s T) as (b & Hb & Hiff).
  exists b. split; [exact Hb|]. rewrite Hiff, Hf. simpl bool_decide.
  assert (Hid : forall l, map (canonicalize false) l = l).
  { intros l. induction l as [|c l IH]; simpl; [|rewrite IH]; reflexivity. }
  split.
  - intros (e & Hin & Hsuf).
    destruct (suffix_fold_inv false _ s Hsuf) as (stem & x & -> & Hx).
    rewrite !Hid in Hx.
    exists stem, e. split; [exact Hin|]. f_equal.
    rewrite <- (string_of_list_ascii_of_string x), Hx.
    apply string_of_list_ascii_of_string.
  - intros (stem & e & Hin & ->). exists e. split; [exact Hin|].
    apply fold_suffix_app.
Qed.

(** With the flag [i] it hits the subjects that end, in upper case, like
    one of its ends. *)
Lemma insensitive_hit (re : RegExp) (es : list string) (s : string) :
  tests_ends re es -> flags re = "i" ->
  exists b, RegExp_test re s = Some b
    /\ (b = true <->
        exists stem x, s = stem +:+ x /\ In (upcase x) (map upcase es)).
Proof.
  intros T Hf.
  destruct (tests_ends_total re es s T) as (b & Hb & Hiff).
  exists b. split; [exact Hb|]. rewrite Hiff, Hf. simpl bool_decide.
  split.
  - intros (e & Hin & Hsuf).
    destruct (suffix_fold_inv true _ s Hsuf) as (stem & x & -> & Hx).
    exists stem, x. split; [reflexivity|].
    apply in_map_iff. exists e. split; [|exact Hin].
    unfold upcase.
    change (map upper (units x) = map upper (units e)) in Hx.
    now rewrite Hx.
  - intros (stem & x & -> & Hin).
    apply in_map_iff in Hin as (e & He & Hin).
    exists e. split; [exact Hin|].
    assert (Hx : fold true e = fold true x).
    { unfold upcase in He.
      apply (f_equal list_ascii_of_string) in He.
      rewrite !list_ascii_of_string_of_list_ascii in He.
      change (map upper (units e) = map upper (units x)). exact He. }
    rewrite Hx. apply fold_suffix_app.
Qed.

(** ** Which rule handles which file *)

Lemma applies_hit (r : Rule.t) (resource : string) :
  applies r resource = Some true ->
  RegExp_test (Rule.test r) resource = Some true.
Proof.
  unfold applies.
  destruct (RegExp_test (Rule.test r) resource) as [[]|]; try discriminate;
    [reflexivity|].
  destruct (Rule.exclude r) as [ex|]; [|discriminate].
  destruct (RegExp_test ex resource); discriminate.
Qed.

Lemma applies_no_exclude (r : Rule.t) (resource : string) :
  Rule.exclude r = None ->
  applies r resource = RegExp_test (Rule.test r) resource.
Proof.
  unfold applies. intros ->. destruct (RegExp_test _ _); reflexivity.
Qed.

(** The pattern of [exclude] in the script rule. *)
Lemma node_modules_test (s : string) :
  RegExp_test (mkRegExp "node_modules" "") s
  = Some (includes "node_modules" s).
Proof.
  unfold RegExp_test.
  assert (Hp : exists r, parse "node_modules" = Some r
                 /\ words_of r = [map Chr (units "node_modules")])
    by (eexists; split; vm_compute; reflexivity).
  destruct Hp as (r & Hp & Hw). cbn [source flags]. rewrite Hp, Hw.
  cbn [existsb]. rewrite occurs_literal.
  destruct (includes "node_modules" s); reflexivity.
Qed.

Ltac exclusive T1 T2 H1 H2 :=
  exfalso; apply applies_hit in H1; apply applies_hit in H2;
  exact (hits_exclusive _ _ _ _ _ T1 T2 eq_refl H1 H2).

(** X1: no file is handled twice: whatever the build mode and whatever the
    path of a resource, at most one rule of the catalogue applies to it. *)
Theorem at_most_one_rule (m : bool) (resource : string) :
  length (matching (rules m) resource) <= 1.
Proof.
  unfold matching, rules.
  rewrite !filter_cons, filter_nil.
  repeat match goal with
  | |- context [decide (applies ?r resource = Some true)] =>
      destruct (decide (applies r resource = Some true))
  end; simpl; try lia.
  all: match goal with
  | H1 : applies _ _ = _, H2 : applies _ _ = _ |- _ =>
    first
    [ exclusive script_pattern_ends stylesheet_pattern_ends H1 H2
    | exclusive script_pattern_ends image_pattern_ends H1 H2
    | exclusive script_pattern_ends font_pattern_ends H1 H2
    | exclusive stylesheet_pattern_ends image_pattern_ends H1 H2
    | exclusive stylesheet_pattern_ends font_pattern_ends H1 H2
    | exclusive image_pattern_ends font_pattern_ends H1 H2 ]
  end.
Qed.

Lemma upcase_fold (x y : string) :
  upcase x = upcase y <-> fold true x = fold true y.
Proof.
  unfold upcase. change (canonicalize true) with upper. split.
  - intros H. apply (f_equal list_ascii_of_string) in H.
    now rewrite !list_ascii_of_string_of_list_ascii in H.
  - intros ->. reflexivity.
Qed.

(** A subject whose end, in upper case, clashes with none of the ends of a
    pattern is not hit, whatever the flags of the pattern. *)
Lemma end_not_hit_upper (re : RegExp) (es : list string) (stem x x0 : string) :
  tests_ends re es ->
  upcase x = upcase x0 ->
  clash true es [x0] = false ->
  RegExp_test re (stem +:+ x) = Some false.
Proof.
  intros T Hx Hc.
  destruct (tests_ends_total re es (stem +:+ x) T) as (b & Hb & _).
  destruct b; [|exact Hb]. exfalso.
  destruct (hit_upper _ _ _ T Hb) as (e & I & S).
  refine (clash_false true es [x0] e x0 _ Hc I _ S _); [left; reflexivity|].
  apply upcase_fold in Hx. rewrite <- Hx. apply fold_suffix_app.
Qed.

Lemma matching_cons (r : Rule.t) (rs : list Rule.t) (s : string) (b : bool) :
  applies r s = Some b ->
  matching (r :: rs) s = if b then r :: matching rs s else matching rs s.
Proof.
  intros H. unfold matching. rewrite filter_cons.
  destruct (decide (applies r s = Some true)) as [Ht | Hf]; rewrite H in *.
  - injection Ht as ->. reflexivity.
  - destruct b; [contradiction Hf|]; reflexivity.
Qed.

(** What the four rules of the file do with a resource, from what their
    patterns do with it. *)
Lemma matching_rules (m : bool) (s : string) (b1 b2 b3 b4 : bool) :
  RegExp_test script_pattern s = Some b1 ->
  RegExp_test stylesheet_pattern s = Some b2 ->
  RegExp_test image_pattern s = Some b3 ->
  RegExp_test font_pattern s = Some b4 ->
  matching (rules m) s
  = filter (fun r =>
      Rule.test r ∈
        (if b1 && negb (includes "node_modules" s) then [script_pattern]
         else [])
        ++ (if b2 then [stylesheet_pattern] else [])
        ++ (if b3 then [image_pattern] else [])
        ++ (if b4 then [font_pattern] else []))%list
      (rules m).
Proof.
  intros H1 H2 H3 H4. unfold rules.
  rewrite (matching_cons _ _ s (b1 && negb (includes "node_modules" s))).
  2:{ unfold applies. cbn [Rule.test Rule.exclude].
      change (mkRegExp "\.tsx?$" "") with script_pattern.
      rewrite H1, node_modules_test. reflexivity. }
  rewrite (matching_cons _ _ s b2)
    by (rewrite applies_no_exclude by reflexivity; exact H2).
  rewrite (matching_cons _ _ s b3)
    by (rewrite applies_no_exclude by reflexivity; exact H3).
  rewrite (matching_cons _ _ s b4)
    by (rewrite applies_no_exclude by reflexivity; exact H4).
  destruct (b1 && negb (includes "node_modules" s)), b2, b3, b4;
    vm_compute; reflexivity.
Qed.

Ltac miss T :=
  eapply (end_not_hit_upper _ _ _ _ _ T); [eassumption || reflexivity | reflexivity].

(** X2: a file whose name ends in [.scss] is handled by the stylesheet rule
    and by no other, also below [node_modules]: the transforms applied to
    it are the chain of the build mode. *)
Theorem stylesheets_handled (m : bool) (stem : string) :
  map chain (matching (rules m) (stem +:+ ".scss"))
  = [[ if m then MiniCssExtractPlugin_loader else LoaderName "style-loader";
       LoaderName "css-loader"; LoaderName "sass-loader" ]].
Proof.
  rewrite (matching_rules m _ false true false false).
  - destruct (includes "node_modules" (stem +:+ ".scss")), m; reflexivity.
  - miss script_pattern_ends.
  - apply (end_hit _ _ stem ".scss" ".scss" stylesheet_pattern_ends);
      [left|]; reflexivity.
  - miss image_pattern_ends.
  - miss font_pattern_ends.
Qed.


(** X4: a file whose name ends in [.tsx] or [.ts] and whose path does not
    contain [node_modules] is handled by the script rule alone, which
    passes it to [ts-loader]. *)
Theorem typescript_handled (m : bool) (stem ext : string) :
  In ext [".tsx"; ".ts"] ->
  includes "node_modules" (stem +:+ ext) = false ->
  patterns (matching (rules m) (stem +:+ ext)) = [script_pattern]
  /\ map chain (matching (rules m) (stem +:+ ext))
     = [[LoaderName "ts-loader"]].
Proof.
  intros Hext Hnm.
  rewrite (matching_rules m _ true false false false).
  - rewrite Hnm. destruct m; split; reflexivity.
  - apply (end_hit _ _ stem ext ext script_pattern_ends);
      [exact Hext | reflexivity].
  - destruct Hext as [<- | [<- | []]]; miss stylesheet_pattern_ends.
  - destruct Hext as [<- | [<- | []]]; miss image_pattern_ends.
  - destruct Hext as [<- | [<- | []]]; miss font_pattern_ends.
Qed.

(** X5: a resource whose path contains [node_modules] is never passed to
    [ts-loader]: the script rule does not apply to it, whatever its name
    ends in. *)
Theorem dependencies_not_compiled (m : bool) (resource : string) :
  includes "node_modules" resource = true ->
  ~ In script_pattern (patterns (matching (rules m) resource))
  /\ ~ In (LoaderName "ts-loader")
          (concat (map chain (matching (rules m) resource))).
Proof.
  intros Hnm.
  destruct (tests_ends_total _ _ resource script_pattern_ends)
    as (b1 & H1 & _).
  destruct (tests_ends_total _ _ resource stylesheet_pattern_ends)
    as (b2 & H2 & _).
  destruct (tests_ends_total _ _ resource image_pattern_ends)
    as (b3 & H3 & _).
  destruct (tests_ends_total _ _ resource font_pattern_ends)
    as (b4 & H4 & _).
  rewrite (matching_rules m _ b1 b2 b3 b4 H1 H2 H3 H4), Hnm, andb_false_r.
  destruct b2, b3, b4, m; vm_compute; split; intros H;
    repeat (destruct H as [H | H]; [discriminate H|]); exact H.
Qed.

Ltac lower_case_of Hx e1 e2 e3 e4 e5 :=
  simpl in Hx; destruct Hx as [H|[H|[H|[H|[H|[]]]]]];
  [exists e1 | exists e2 | exists e3 | exists e4 | exists e5];
  (split; [simpl; tauto | rewrite <- H; reflexivity]).

(** X6: the image rule does not look at letter case: a file whose name
    ends, in any mix of cases, in one of the image extensions is handled
    by the image rule alone, which is of type [asset/resource] and so
    emits the file, under the name [images/[name].[hash][ext]]. *)
Theorem images_handled_in_any_case (m : bool) (stem x : string) :
  In (upcase x) [".PNG"; ".JPEG"; ".JPG"; ".GIF"; ".SVG"] ->
  patterns (matching (rules m) (stem +:+ x)) = [image_pattern]
  /\ map Rule.type (matching (rules m) (stem +:+ x))
     = [Some "asset/resource"]
  /\ map emitted_name (matching (rules m) (stem +:+ x))
     = [Some "images/[name].[hash][ext]"].
Proof.
  intros Hx.
  assert (He : exists e, In e [".png"; ".jpeg"; ".jpg"; ".gif"; ".svg"]
                         /\ upcase x = upcase e)
    by (lower_case_of Hx ".png" ".jpeg" ".jpg" ".gif" ".svg").
  destruct He as (e & Hin & Hup).
  rewrite (matching_rules m _ false false true false).
  - destruct m; repeat split; reflexivity.
  - destruct Hin as [<-|[<-|[<-|[<-|[<-|[]]]]]]; miss script_pattern_ends.
  - destruct Hin as [<-|[<-|[<-|[<-|[<-|[]]]]]];
      miss stylesheet_pattern_ends.
  - apply (end_hit _ _ stem x e image_pattern_ends Hin).
    apply upcase_fold, Hup.
  - destruct Hin as [<-|[<-|[<-|[<-|[<-|[]]]]]]; miss font_pattern_ends.
Qed.

(** X7: nor does the font rule: a file whose name ends, in any mix of
    cases, in one of the font extensions is handled by the font rule
    alone, which is of type [asset/resource] and so emits the file, under
    the name [fonts/[name].[hash][ext]]. *)
Theorem fonts_handled_in_any_case (m : bool) (stem x : string) :
  In (upcase x) [".WOFF"; ".WOFF2"; ".EOT"; ".TTF"; ".OTF"] ->
  patterns (matching (rules m) (stem +:+ x)) = [font_pattern]
  /\ map Rule.type (matching (rules m) (stem +:+ x))
     = [Some "asset/resource"]
  /\ map emitted_name (matching (rules m) (stem +:+ x))
     = [Some "fonts/[name].[hash][ext]"].
Proof.
  intros Hx.
  assert (He : exists e, In e [".woff"; ".woff2"; ".eot"; ".ttf"; ".otf"]
                         /\ upcase x = upcase e)
    by (lower_case_of Hx ".woff" ".woff2" ".eot" ".ttf" ".otf").
  destruct He as (e & Hin & Hup).
  rewrite (matching_rules m _ false false false true).
  - destruct m; repeat split; reflexivity.
  - destruct Hin as [<-|[<-|[<-|[<-|[<-|[]]]]]]; miss script_pattern_ends.
  - destruct Hin as [<-|[<-|[<-|[<-|[<-|[]]]]]];
      miss stylesheet_pattern_ends.
  - destruct Hin as [<-|[<-|[<-|[<-|[<-|[]]]]]]; miss image_pattern_ends.
  - apply (end_hit _ _ stem x e font_pattern_ends Hin).
    apply upcase_fold, Hup.
Qed.

Lemma fold_false_id (l : list ascii) : map (canonicalize false) l = l.
Proof.
  induction l as [|c l IH]; simpl; [|rewrite IH]; reflexivity.
Qed.

Lemma units_inj (x y : string) : units x = units y -> x = y.
Proof.
  intros H. rewrite <- (string_of_list_ascii_of_string x), H.
  apply string_of_list_ascii_of_string.
Qed.

(** A pattern without the flag [i] does not hit a subject whose end differs
    from one of its ends in letter case only. *)
Lemma sensitive_miss (re : RegExp) (es : list string) (stem x x0 : string) :
  tests_ends re es -> flags re = "" ->
  upcase x = upcase x0 -> x <> x0 ->
  (forall e, In e es -> e = x0 \/ clash true [e] [x0] = false) ->
  RegExp_test re (stem +:+ x) = Some false.
Proof.
  intros T Hf Hup Hne Hes.
  destruct (tests_ends_total re es (stem +:+ x) T) as (b & Hb & Hiff).
  destruct b; [|exact Hb]. exfalso.
  destruct Hiff as [Hiff _]. destruct (Hiff eq_refl) as (e & I & S).
  rewrite Hf in S. simpl bool_decide in S. rewrite !fold_false_id in S.
  assert (Sx : units x `suffix_of` units (stem +:+ x)).
  { rewrite units_app. eexists. reflexivity. }
  apply upcase_fold in Hup.
  assert (Hlen : length (units x) = length (units x0)).
  { apply (f_equal (@length ascii)) in Hup.
    now rewrite !length_map in Hup. }
  destruct (Hes e I) as [-> | Hc].
  - destruct (suffix_weak_total _ _ _ S Sx) as [H | H].
    + apply suffix_length_eq in H; [|lia].
      apply units_inj in H. congruence.
    + apply suffix_length_eq in H; [|lia].
      apply units_inj in H. congruence.
  - destruct (suffix_weak_total _ _ _ S Sx) as [H | H];
      apply (suffix_map upper) in H.
    + refine (clash_false true [e] [x0] e x0 (fold true x0) Hc _ _ _ _);
        [left; reflexivity | left; reflexivity | | reflexivity].
      change (fold true e `suffix_of` fold true x0).
      rewrite <- Hup. exact H.
    + refine (clash_false true [e] [x0] e x0 (fold true e) Hc _ _ _ _);
        [left; reflexivity | left; reflexivity | reflexivity |].
      change (fold true x0 `suffix_of` fold true e).
      rewrite <- Hup. exact H.
Qed.

(** X8: the script rule and the stylesheet rule do look at letter case: a
    file whose name ends like [.tsx], [.ts] or [.scss] but for the case of
    some letter is handled by no rule. *)
Theorem extensions_case_sensitive (m : bool) (stem x x0 : string) :
  In x0 [".tsx"; ".ts"; ".scss"] ->
  upcase x = upcase x0 ->
  x <> x0 ->
  matching (rules m) (stem +:+ x) = [].
Proof.
  intros Hin Hup Hne.
  rewrite (matching_rules m _ false false false false).
  - reflexivity.
  - apply (sensitive_miss _ _ stem x x0 script_pattern_ends eq_refl Hup Hne).
    intros e He.
    destruct Hin as [<-|[<-|[<-|[]]]], He as [<-|[<-|[]]];
      (left; reflexivity) || (right; reflexivity).
  - apply (sensitive_miss _ _ stem x x0 stylesheet_pattern_ends eq_refl
             Hup Hne).
    intros e He.
    destruct Hin as [<-|[<-|[<-|[]]]], He as [<-|[]];
      (left; reflexivity) || (right; reflexivity).
  - destruct Hin as [<-|[<-|[<-|[]]]]; miss image_pattern_ends.
  - destruct Hin as [<-|[<-|[<-|[]]]]; miss font_pattern_ends.
Qed.

(** ** The environment and the settings it gates *)

Section Derivation.

Variable __dirname : string.
Variable path_resolve : list string -> string.

Import Configuration.

Lemma isProduction_spec (env : gmap string string) :
  isProduction env = true <-> env !! "NODE_ENV" = Some "production".
Proof.
  unfold isProduction. apply bool_decide_eq_true.
Qed.

(** X9: the exports read one variable of the environment: setting or
    removing any other variable leaves them as they are. *)
Theorem other_variables_ignored
    (env : gmap string string) (name value : string) :
  name <> "NODE_ENV" ->
  let exports := module_exports __dirname path_resolve in
  exports (<[name := value]> env) = exports env
  /\ exports (delete name env) = exports env.
Proof.
  intros Hname.
  cbv zeta. rewrite !module_exports_unfold. unfold isProduction.
  rewrite lookup_insert_ne, lookup_delete_ne by (symmetry; exact Hname) || exact Hname.
  split; reflexivity.
Qed.

(** X10: development is the default. A [NODE_ENV] that is anything but
    the exact text [production] gives the exports of an environment
    without [NODE_ENV], which are the development configuration; only
    the exact text gives the production one. *)
Theorem development_unless_exact
    (env : gmap string string) (value : string) :
  value <> "production" ->
  let exports := module_exports __dirname path_resolve in
  exports (<["NODE_ENV" := value]> env) = exports (delete "NODE_ENV" env)
  /\ exports (delete "NODE_ENV" env)
     = configuration __dirname path_resolve false
  /\ exports (<["NODE_ENV" := "production"]> env)
     = configuration __dirname path_resolve true.
Proof.
  intros Hvalue.
  assert (Hset : forall v, isProduction (<["NODE_ENV" := v]> env)
                           = bool_decide (v = "production")).
  { intros v. unfold isProduction. rewrite lookup_insert_eq.
    apply bool_decide_ext. split; [intros [= ->] | intros ->]; reflexivity. }
  assert (Hdel : isProduction (delete "NODE_ENV" env) = false).
  { unfold isProduction. now rewrite lookup_delete_eq. }
  cbv zeta. unfold module_exports, evaluate; simpl.
  rewrite !Hset, Hdel, (bool_decide_eq_false_2 _ Hvalue).
  repeat split.
Qed.

(** X11: every setting that the flag gates agrees with the [mode] the
    exports declare, in any environment: [mode] is one of [production]
    and [development], and it is [production] exactly when the output is
    minimized, when no source map is made, when the page is minified, when
    stylesheets are extracted and when the bundle name is fingerprinted. *)
Theorem settings_follow_mode (env : gmap string string) :
  let c := module_exports __dirname path_resolve env in
  let production := bool_decide (mode c = "production") in
  (mode c = "production" \/ mode c = "development")
  /\ production = isProduction env
  /\ Optimization.minimize (optimization c) = production
  /\ is_enabled (devtool c) = negb production
  /\ (html_options c ≫= fun o => Some (is_enabled (Html.minify o)))
     = Some production
  /\ existsb is_MiniCssExtractPlugin (plugins c) = production
  /\ has_fingerprint (Output.filename (output c)) = production.
Proof.
  cbv zeta. rewrite module_exports_unfold.
  destruct (isProduction env); vm_compute; intuition.
Qed.

(** X12: the extraction loader and the extraction plugin come together:
    in any environment the stylesheet chain uses the loader of the
    extraction plugin exactly when the plugin is registered. *)
Theorem extraction_loader_iff_plugin (env : gmap string string) :
  let c := module_exports __dirname path_resolve env in
  bool_decide (MiniCssExtractPlugin_loader ∈ stylesheet_chain c)
  = existsb is_MiniCssExtractPlugin (plugins c)
  /\ bool_decide (LoaderName "style-loader" ∈ stylesheet_chain c)
     = negb (existsb is_MiniCssExtractPlugin (plugins c)).
Proof.
  cbv zeta. rewrite module_exports_unfold.
  destruct (isProduction env); vm_compute; split; reflexivity.
Qed.

(** X13: all names or none but the bundle's: in production every
    file-name template of the build (bundle, extracted stylesheet, assets)
    has a fingerprint placeholder, the extracted stylesheet being named
    [css/[name].[contenthash].css]; in development nothing is extracted
    and the one template without a placeholder is that of the bundle,
    [js/[name].bundle.js]. *)
Theorem names_fingerprinted_iff_production (m : bool) :
  let c := configuration __dirname path_resolve m in
  forallb has_fingerprint (output_templates c) = m
  /\ filter (fun t => has_fingerprint t = false) (output_templates c)
     = (if m then [] else ["js/[name].bundle.js"])
  /\ filter (fun t => has_fingerprint t = true) (output_templates c)
     = ((if m then ["js/[name].[contenthash].js";
                    "css/[name].[contenthash].css"] else [])
        ++ ["assets/[hash][ext][query]"; "images/[name].[hash][ext]";
            "fonts/[name].[hash][ext]"])%list
  /\ stylesheet_templates c
     = (if m then ["css/[name].[contenthash].css"] else [])
  /\ length (output_templates c) = (if m then 5 else 4).
Proof.
  destruct m; vm_compute; repeat split.
Qed.

(** X14: what the flag does not gate: the entry, the output directory and
    its cleaning, the extensions to resolve, the splitting of all chunks,
    the minimizer options and the page template are the same in both build
    modes. *)
Theorem mode_independent_settings (m m' : bool) :
  let c := configuration __dirname path_resolve m in
  let c' := configuration __dirname path_resolve m' in
  entry c = entry c'
  /\ Output.path (output c) = Output.path (output c')
  /\ Output.clean (output c) = true
  /\ resolve c = resolve c'
  /\ Optimization.splitChunks (optimization c) = SplitChunks.mk "all"
  /\ Optimization.minimizer (optimization c)
     = Optimization.minimizer (optimization c')
  /\ (html_options c ≫= fun o => Some (Html.template o))
     = Some "./public/index.html".
Proof.
  destruct m, m'; repeat split.
Qed.

End Derivation.

(** ** The test runner against the bundler *)

Lemma jest_style_key_ends :
  tests_ends (mkRegExp "\.(css|scss|sass)$" "") [".css"; ".scss"; ".sass"].
Proof. tests_ends_by_evaluation. Qed.

Lemma jest_image_key_ends :
  tests_ends (mkRegExp "\.(png|jpg|jpeg|gif|svg)$" "")
             [".png"; ".jpg"; ".jpeg"; ".gif"; ".svg"].
Proof. tests_ends_by_evaluation. Qed.

(** X15: every module that the stylesheet rule of the bundler handles is
    replaced by [identity-obj-proxy] in the tests. *)
Theorem stylesheets_mocked (name : string) :
  RegExp_test stylesheet_pattern name = Some true ->
  mapped (Jest.moduleNameMapper jest_config) name
  = Some (Some "identity-obj-proxy").
Proof.
  intros Hhit.
  destruct (sensitive_hit _ _ name stylesheet_pattern_ends eq_refl)
    as (b & Hb & Hiff).
  rewrite Hhit in Hb. injection Hb as <-.
  destruct Hiff as [Hiff _].
  destruct (Hiff eq_refl) as (stem & e & [<- | []] & ->).
  cbn [mapped jest_config Jest.moduleNameMapper].
  rewrite (end_hit _ _ stem ".scss" ".scss" jest_style_key_ends);
    [reflexivity | right; left; reflexivity | reflexivity].
Qed.

(** X16: of the files that the image rule of the bundler handles, the
    tests replace by the file mock those whose extension is written in
    lower case, and no other: a module that ends in [.PNG] is bundled as an
    image and is not mocked. *)
Theorem images_mocked_in_lower_case (stem x : string) :
  In (upcase x) [".PNG"; ".JPEG"; ".JPG"; ".GIF"; ".SVG"] ->
  mapped (Jest.moduleNameMapper jest_config) (stem +:+ x)
  = Some (if bool_decide (x ∈ [".png"; ".jpg"; ".jpeg"; ".gif"; ".svg"])
          then Some "<rootDir>/test-utils/mocks/fileMock.js" else None).
Proof.
  intros Hx.
  assert (He : exists e, In e [".png"; ".jpeg"; ".jpg"; ".gif"; ".svg"]
                         /\ upcase x = upcase e)
    by (lower_case_of Hx ".png" ".jpeg" ".jpg" ".gif" ".svg").
  destruct He as (e & Hin & Hup).
  cbn [mapped jest_config Jest.moduleNameMapper].
  assert (Hstyle : RegExp_test (mkRegExp "\.(css|scss|sass)$" "")
                     (stem +:+ x) = Some false).
  { destruct Hin as [<-|[<-|[<-|[<-|[<-|[]]]]]]; miss jest_style_key_ends. }
  rewrite Hstyle.
  destruct (decide (x = e)) as [-> | Hne].
  - rewrite (end_hit _ _ stem e e jest_image_key_ends);
      [ | destruct Hin as [<-|[<-|[<-|[<-|[<-|[]]]]]]; simpl; tauto
        | reflexivity ].
    rewrite bool_decide_eq_true_2; [reflexivity|].
    destruct Hin as [<-|[<-|[<-|[<-|[<-|[]]]]]];
      apply list_elem_of_In; simpl; tauto.
  - rewrite (sensitive_miss _ _ stem x e jest_image_key_ends eq_refl Hup Hne).
    + rewrite bool_decide_eq_false_2; [reflexivity|].
      intros Hmem.
      assert (Hx0 : exists e', In e' [".png"; ".jpg"; ".jpeg"; ".gif"; ".svg"]
                               /\ x = e').
      { exists x. split; [|reflexivity]. apply list_elem_of_In, Hmem. }
      destruct Hx0 as (e' & Hin' & ->).
      destruct Hin as [<-|[<-|[<-|[<-|[<-|[]]]]]],
               Hin' as [<-|[<-|[<-|[<-|[<-|[]]]]]];
        first [ contradiction Hne; reflexivity
              | vm_compute in Hup; discriminate Hup ].
    + intros e' He'.
      destruct Hin as [<-|[<-|[<-|[<-|[<-|[]]]]]],
               He' as [<-|[<-|[<-|[<-|[<-|[]]]]]];
        (left; reflexivity) || (right; reflexivity).
Qed.

(** X17: the files that the font rule of the bundler handles are never
    replaced in the tests: no key of the mapper passes on them. *)
Theorem fonts_not_mocked (stem x : string) :
  In (upcase x) [".WOFF"; ".WOFF2"; ".EOT"; ".TTF"; ".OTF"] ->
  mapped (Jest.moduleNameMapper jest_config) (stem +:+ x) = Some None.
Proof.
  intros Hx.
  assert (He : exists e, In e [".woff"; ".woff2"; ".eot"; ".ttf"; ".otf"]
                         /\ upcase x = upcase e)
    by (lower_case_of Hx ".woff" ".woff2" ".eot" ".ttf" ".otf").
  destruct He as (e & Hin & Hup).
  cbn [mapped jest_config Jest.moduleNameMapper].
  assert (Hstyle : RegExp_test (mkRegExp "\.(css|scss|sass)$" "")
                     (stem +:+ x) = Some false).
  { destruct Hin as [<-|[<-|[<-|[<-|[<-|[]]]]]]; miss jest_style_key_ends. }
  assert (Himage : RegExp_test (mkRegExp "\.(png|jpg|jpeg|gif|svg)$" "")
                     (stem +:+ x) = Some false).
  { destruct Hin as [<-|[<-|[<-|[<-|[<-|[]]]]]]; miss jest_image_key_ends. }
  rewrite Hstyle, Himage. reflexivity.
Qed.

(** ** The cart reducer *)

Section CartProperties.

Context {Id : Type}.
Variable strict_eq : Id -> Id -> bool.
Context {Num : Type}.
Variable plus : Num -> Num -> Num.
Variable zero : Num.

Local Abbreviation reduce := (cartReducer strict_eq plus zero).
Local Abbreviation sum := (sum_prices plus zero).
Local Abbreviation differs i :=
  (fun it : CartItem Id Num => negb (strict_eq (item_id it) i)).

Lemma reduce_consistent (state : CartState Id Num) (a : CartAction Id Num) :
  cart_consistent plus zero state ->
  cart_consistent plus zero (reduce state a).
Proof.
  intros Hst. destruct a; [reflexivity | reflexivity | exact Hst].
Qed.

(** X18: the cart never shows a stale total: after any sequence of
    actions from the initial state, known or unknown to the reducer, the
    total is the sum of the prices of the items in the cart. *)
Theorem cart_total_invariant (actions : list (CartAction Id Num)) :
  let state := fold_left reduce actions (cart_initialState zero) in
  total state = sum (items state).
Proof.
  cbv zeta.
  assert (Hgen : forall st, cart_consistent plus zero st ->
            cart_consistent plus zero (fold_left reduce actions st)).
  { induction actions as [|a rest IH]; intros st Hst; simpl; [exact Hst|].
    apply IH, reduce_consistent, Hst. }
  apply Hgen. reflexivity.
Qed.

Lemma filter_differs_idemp (i : Id) (l : list (CartItem Id Num)) :
  List.filter (differs i) (List.filter (differs i) l)
  = List.filter (differs i) l.
Proof.
  induction l as [|it l IH]; simpl; [reflexivity|].
  destruct (negb (strict_eq (item_id it) i)) eqn:E; simpl.
  - rewrite E, IH. reflexivity.
  - exact IH.
Qed.

Lemma filter_differs_fresh (i : Id) (l : list (CartItem Id Num)) :
  Forall (fun it => strict_eq (item_id it) i = false) l ->
  List.filter (differs i) l = l.
Proof.
  induction 1 as [|it l Hit _ IH]; simpl; [reflexivity|].
  rewrite Hit, IH. reflexivity.
Qed.

(** X19: removing by identifier removes every item whose identifier is
    strictly equal to the given one, not one of them: after [REMOVE_ITEM]
    no item of the cart has an identifier strictly equal to it, the other
    items are kept in their order, and removing a second time changes
    nothing. An item added twice is gone after one removal when its
    identifier is strictly equal to itself; when it is not, as for
    [NaN], both copies stay. *)
Theorem remove_item_removes_all
    (state : CartState Id Num) (item : CartItem Id Num) (i : Id) :
  let removed := reduce state (REMOVE_ITEM i) in
  Forall (fun it => strict_eq (item_id it) i = false) (items removed)
  /\ items removed = List.filter (differs i) (items state)
  /\ reduce removed (REMOVE_ITEM i) = removed
  /\ items (reduce (reduce (reduce state (ADD_ITEM item)) (ADD_ITEM item))
                   (REMOVE_ITEM (item_id item)))
     = (items (reduce state (REMOVE_ITEM (item_id item)))
        ++ (if strict_eq (item_id item) (item_id item) then []
            else [item; item]))%list.
Proof.
  cbv zeta. simpl. repeat split.
  - apply List.Forall_forall. intros it Hit.
    apply List.filter_In in Hit as [_ Hit].
    now apply negb_true_iff in Hit.
  - now rewrite filter_differs_idemp.
  - rewrite <- !app_assoc, List.filter_app. simpl.
    destruct (strict_eq (item_id item) (item_id item)); reflexivity.
Qed.

(** X20: adding an item and removing it again, when no item of the cart
    has an identifier strictly equal to that of the added one: the items
    of the cart are given back, and the total is the sum of their prices,
    if the identifier of the added item is strictly equal to itself; if it
    is not, as for [NaN], the added item stays in the cart. *)
Theorem add_then_remove
    (state : CartState Id Num) (item : CartItem Id Num) :
  Forall (fun it => strict_eq (item_id it) (item_id item) = false)
         (items state) ->
  let back := reduce (reduce state (ADD_ITEM item))
                     (REMOVE_ITEM (item_id item)) in
  items back
  = (if strict_eq (item_id item) (item_id item) then items state
     else items state ++ [item])%list
  /\ total back = sum (items back).
Proof.
  intros Hfresh. cbv zeta. simpl.
  rewrite List.filter_app, (filter_differs_fresh _ _ Hfresh). simpl.
  destruct (strict_eq (item_id item) (item_id item)); simpl;
    rewrite ?app_nil_r; split; reflexivity.
Qed.

End CartProperties.

(** ** The toggle reducer *)

Lemma array_new_fresh (store : gmap positive (list bool)) (c : list bool) :
  store !! fst (array_new store c) = None.
Proof.
  unfold array_new; simpl. apply not_elem_of_dom, is_fresh.
Qed.

Lemma array_new_lookup (store : gmap positive (list bool)) (c : list bool)
    (l : positive) :
  is_Some (store !! l) ->
  snd (array_new store c) !! l = store !! l.
Proof.
  intros Hl. unfold array_new; simpl. apply lookup_insert_ne.
  intros Heq. rewrite <- Heq in Hl.
  pose proof (array_new_fresh store c) as Hf. unfold array_new in Hf.
  simpl in Hf. rewrite Hf in Hl. destruct Hl as [? Hl]. discriminate Hl.
Qed.

Lemma array_new_self (store : gmap positive (list bool)) (c : list bool) :
  snd (array_new store c) !! fst (array_new store c) = Some c.
Proof.
  unfold array_new; simpl. apply lookup_insert_eq.
Qed.

(** X21: [TOGGLE] followed by [UNDO] gives back the flag and a history
    with the entries it had, and the array of the first state is as it
    was. *)
Theorem toggle_undo_round_trip
    (store : gmap positive (list bool)) (state : ToggleState)
    (h : list bool) :
  store !! history state = Some h ->
  exists state1 store1 state2 store2,
    toggleReducer store state TOGGLE = Some (state1, store1)
    /\ toggleReducer store1 state1 UNDO = Some (state2, store2)
    /\ isOn state2 = isOn state
    /\ store2 !! history state2 = Some h
    /\ store2 !! history state = Some h.
Proof.
  intros Hh. unfold toggleReducer at 1. rewrite Hh.
  destruct (array_new store (h ++ [isOn state])%list) as [l1 s1] eqn:E1.
  assert (Hl1 : s1 !! l1 = Some (h ++ [isOn state])%list).
  { pose proof (array_new_self store (h ++ [isOn state])%list) as H.
    now rewrite E1 in H. }
  assert (Hold : s1 !! history state = Some h).
  { pose proof (array_new_lookup store (h ++ [isOn state])%list (history state))
      as H. rewrite E1 in H. simpl in H. rewrite H; [exact Hh | eauto]. }
  assert (Hne : l1 <> history state).
  { intros Heq. pose proof (array_new_fresh store (h ++ [isOn state])%list) as H.
    rewrite E1 in H. simpl in H. rewrite Heq, Hh in H. discriminate H. }
  exists {| isOn := negb (isOn state); history := l1 |}, s1.
  unfold toggleReducer. simpl history. rewrite Hl1.
  rewrite removelast_last, last_snoc.
  destruct (array_new (<[l1 := h]> s1) h) as [l2 s2] eqn:E2.
  eexists _, _. split; [reflexivity|]. split; [reflexivity|].
  split; [reflexivity|]. simpl.
  split.
  - pose proof (array_new_self (<[l1 := h]> s1) h) as H.
    now rewrite E2 in H.
  - pose proof (array_new_lookup (<[l1 := h]> s1) h (history state)) as H.
    rewrite E2 in H. simpl in H.
    rewrite lookup_insert_ne in H by exact Hne.
    rewrite H; [exact Hold | rewrite Hold; eauto].
Qed.

(** X22: [UNDO] changes the state it is given: it takes the last entry
    out of the history array of that state, so undoing the same state a
    second time goes one entry further back instead of giving the same
    result. *)
Theorem undo_changes_its_argument
    (store : gmap positive (list bool)) (state : ToggleState)
    (h : list bool) (b : bool) :
  store !! history state = Some (h ++ [b])%list ->
  exists state1 store1 state2 store2,
    toggleReducer store state UNDO = Some (state1, store1)
    /\ isOn state1 = b
    /\ store1 !! history state1 = Some h
    /\ store1 !! history state = Some h
    /\ toggleReducer store1 state UNDO = Some (state2, store2)
    /\ isOn state2 = default (isOn state) (last h)
    /\ store2 !! history state2 = Some (removelast h).
Proof.
  intros Hh. unfold toggleReducer at 1. rewrite Hh.
  rewrite removelast_last, last_snoc.
  destruct (array_new (<[history state := h]> store) h) as [l1 s1] eqn:E1.
  assert (Hold : s1 !! history state = Some h).
  { pose proof (array_new_lookup (<[history state := h]> store) h
                  (history state)) as H.
    rewrite E1 in H. simpl in H. rewrite lookup_insert_eq in H.
    apply H. eauto. }
  exists {| isOn := b; history := l1 |}, s1.
  unfold toggleReducer. rewrite Hold.
  destruct (array_new (<[history state := removelast h]> s1) (removelast h))
    as [l2 s2] eqn:E2.
  eexists _, _. split; [reflexivity|]. split; [reflexivity|].
  split.
  { pose proof (array_new_self (<[history state := h]> store) h) as H.
    now rewrite E1 in H. }
  split; [reflexivity|]. split; [reflexivity|]. split; [reflexivity|].
  pose proof (array_new_self (<[history state := removelast h]> s1)
                (removelast h)) as H.
  now rewrite E2 in H.
Qed.

(** X23: [UNDO] with an empty history keeps the flag, gives an empty
    history, and leaves every array of the store as it was. *)
Theorem undo_empty_history
    (store : gmap positive (list bool)) (state : ToggleState) :
  store !! history state = Some [] ->
  exists state1 store1,
    toggleReducer store state UNDO = Some (state1, store1)
    /\ isOn state1 = isOn state
    /\ store1 !! history state1 = Some []
    /\ (forall l, is_Some (store !! l) -> store1 !! l = store !! l).
Proof.
  intros Hh. unfold toggleReducer. rewrite Hh.
  simpl removelast. simpl last.
  rewrite (insert_id store (history state) []) by exact Hh.
  destruct (array_new store []) as [l1 s1] eqn:E1.
  eexists _, _. split; [reflexivity|]. split; [reflexivity|]. split.
  - simpl. pose proof (array_new_self store []) as H. now rewrite E1 in H.
  - intros l Hl. pose proof (array_new_lookup store [] l Hl) as H.
    now rewrite E1 in H.
Qed.

(** X24: [TOGGLE] flips the flag and records the old flag at the end of a
    new history, without changing any array of the store: the state it
    is given reads afterwards as before. *)
Theorem toggle_keeps_its_argument
    (store : gmap positive (list bool)) (state : ToggleState)
    (h : list bool) :
  store !! history state = Some h ->
  exists state1 store1,
    toggleReducer store state TOGGLE = Some (state1, store1)
    /\ isOn state1 = negb (isOn state)
    /\ store1 !! history state1 = Some (h ++ [isOn state])%list
    /\ history state1 <> history state
    /\ (forall l, is_Some (store !! l) -> store1 !! l = store !! l).
Proof.
  intros Hh. unfold toggleReducer. rewrite Hh.
  destruct (array_new store (h ++ [isOn state])%list) as [l1 s1] eqn:E1.
  eexists _, _. split; [reflexivity|]. split; [reflexivity|]. simpl.
  pose proof (array_new_self store (h ++ [isOn state])%list) as Hself.
  pose proof (array_new_fresh store (h ++ [isOn state])%list) as Hfresh.
  rewrite E1 in Hself, Hfresh. simpl in Hself, Hfresh.
  split; [exact Hself|]. split.
  - intros Heq. rewrite Heq, Hh in Hfresh. discriminate Hfresh.
  - intros l Hl.
    pose proof (array_new_lookup store (h ++ [isOn state])%list l Hl) as H.
    now rewrite E1 in H.
Qed.

(** ** The properties at concrete inputs *)

Lemma typescript_handled_witness :
  In ".tsx" [".tsx"; ".ts"]
  /\ includes "node_modules" ("src/App" +:+ ".tsx") = false
  /\ patterns (matching (rules true) ("src/App" +:+ ".tsx"))
     = [script_pattern]
  /\ map chain (matching (rules true) ("src/App" +:+ ".tsx"))
     = [[LoaderName "ts-loader"]].
Proof.
  split; [left; reflexivity|]. split; [reflexivity|].
  apply (typescript_handled true "src/App" ".tsx");
    [left; reflexivity | reflexivity].
Defined.

Lemma dependencies_not_compiled_witness :
  includes "node_modules" "/app/node_modules/lib/index.ts" = true
  /\ ~ In script_pattern
        (patterns (matching (rules false) "/app/node_modules/lib/index.ts"))
  /\ ~ In (LoaderName "ts-loader")
        (concat (map chain
           (matching (rules false) "/app/node_modules/lib/index.ts"))).
Proof.
  split; [reflexivity|].
  apply (dependencies_not_compiled false "/app/node_modules/lib/index.ts").
  reflexivity.
Defined.

Lemma images_handled_in_any_case_witness :
  In (upcase ".PnG") [".PNG"; ".JPEG"; ".JPG"; ".GIF"; ".SVG"]
  /\ patterns (matching (rules true) ("src/assets/Logo" +:+ ".PnG"))
     = [image_pattern]
  /\ map Rule.type (matching (rules true) ("src/assets/Logo" +:+ ".PnG"))
     = [Some "asset/resource"]
  /\ map emitted_name (matching (rules true) ("src/assets/Logo" +:+ ".PnG"))
     = [Some "images/[name].[hash][ext]"].
Proof.
  split; [left; reflexivity|].
  apply (images_handled_in_any_case true "src/assets/Logo" ".PnG").
  left; reflexivity.
Defined.

Lemma fonts_handled_in_any_case_witness :
  In (upcase ".Woff2") [".WOFF"; ".WOFF2"; ".EOT"; ".TTF"; ".OTF"]
  /\ patterns (matching (rules false) ("src/fonts/Inter" +:+ ".Woff2"))
     = [font_pattern]
  /\ map Rule.type (matching (rules false) ("src/fonts/Inter" +:+ ".Woff2"))
     = [Some "asset/resource"]
  /\ map emitted_name (matching (rules false) ("src/fonts/Inter" +:+ ".Woff2"))
     = [Some "fonts/[name].[hash][ext]"].
Proof.
  split; [right; left; reflexivity|].
  apply (fonts_handled_in_any_case false "src/fonts/Inter" ".Woff2").
  right; left; reflexivity.
Defined.

Lemma extensions_case_sensitive_witness :
  In ".tsx" [".tsx"; ".ts"; ".scss"]
  /\ upcase ".TSX" = upcase ".tsx"
  /\ ".TSX" <> ".tsx"
  /\ matching (rules true) ("src/App" +:+ ".TSX") = [].
Proof.
  split; [left; reflexivity|]. split; [reflexivity|].
  split; [discriminate|].
  apply (extensions_case_sensitive true "src/App" ".TSX" ".tsx");
    [left; reflexivity | reflexivity | discriminate].
Defined.

Lemma other_variables_ignored_witness :
  "PORT" <> "NODE_ENV"
  /\ module_exports checkout_dir join_segments
       (<["PORT" := "9000"]> env_production)
     = module_exports checkout_dir join_segments env_production
  /\ module_exports checkout_dir join_segments
       (delete "PORT" env_production)
     = module_exports checkout_dir join_segments env_production.
Proof.
  split; [discriminate|].
  apply (other_variables_ignored checkout_dir join_segments
           env_production "PORT" "9000").
  discriminate.
Defined.

Lemma development_unless_exact_witness :
  "Production" <> "production"
  /\ module_exports checkout_dir join_segments
       (<["NODE_ENV" := "Production"]> env_development)
     = module_exports checkout_dir join_segments
         (delete "NODE_ENV" env_development)
  /\ module_exports checkout_dir join_segments
       (delete "NODE_ENV" env_development)
     = configuration checkout_dir join_segments false
  /\ module_exports checkout_dir join_segments
       (<["NODE_ENV" := "production"]> env_development)
     = configuration checkout_dir join_segments true.
Proof.
  split; [discriminate|].
  apply (development_unless_exact checkout_dir join_segments
           env_development "Production").
  discriminate.
Defined.

Lemma stylesheets_mocked_witness :
  RegExp_test stylesheet_pattern "./App.scss" = Some true
  /\ mapped (Jest.moduleNameMapper jest_config) "./App.scss"
     = Some (Some "identity-obj-proxy").
Proof.
  split; [vm_compute; reflexivity|].
  apply (stylesheets_mocked "./App.scss"). vm_compute; reflexivity.
Defined.

Lemma images_mocked_in_lower_case_witness :
  In (upcase ".PNG") [".PNG"; ".JPEG"; ".JPG"; ".GIF"; ".SVG"]
  /\ mapped (Jest.moduleNameMapper jest_config) ("./assets/logo" +:+ ".PNG")
     = Some (if bool_decide
                  (".PNG" ∈ [".png"; ".jpg"; ".jpeg"; ".gif"; ".svg"])
             then Some "<rootDir>/test-utils/mocks/fileMock.js" else None).
Proof.
  split; [left; reflexivity|].
  apply (images_mocked_in_lower_case "./assets/logo" ".PNG").
  left; reflexivity.
Defined.

Lemma fonts_not_mocked_witness :
  In (upcase ".woff") [".WOFF"; ".WOFF2"; ".EOT"; ".TTF"; ".OTF"]
  /\ mapped (Jest.moduleNameMapper jest_config) ("./fonts/Inter" +:+ ".woff")
     = Some None.
Proof.
  split; [left; reflexivity|].
  apply (fonts_not_mocked "./fonts/Inter" ".woff"). left; reflexivity.
Defined.

Lemma add_then_remove_witness :
  let cart := {| items := [mkCartItem 1 30; mkCartItem 2 12]; total := 42 |} in
  let item := mkCartItem 7 5 in
  let reduce := cartReducer Nat.eqb Nat.add 0 in
  Forall (fun it => Nat.eqb (item_id it) (item_id item) = false) (items cart)
  /\ items (reduce (reduce cart (ADD_ITEM item)) (REMOVE_ITEM (item_id item)))
     = (if Nat.eqb (item_id item) (item_id item) then items cart
        else items cart ++ [item])%list
  /\ total (reduce (reduce cart (ADD_ITEM item)) (REMOVE_ITEM (item_id item)))
     = sum_prices Nat.add 0
         (items (reduce (reduce cart (ADD_ITEM item))
                        (REMOVE_ITEM (item_id item)))).
Proof.
  cbv zeta.
  assert (Hfresh : Forall (fun it : CartItem nat nat =>
                             Nat.eqb (item_id it) 7 = false)
                     [mkCartItem 1 30; mkCartItem 2 12]).
  { repeat constructor. }
  split; [exact Hfresh|].
  exact (add_then_remove Nat.eqb Nat.add 0
           {| items := [mkCartItem 1 30; mkCartItem 2 12]; total := 42 |}
           (mkCartItem 7 5) Hfresh).
Defined.

Lemma toggle_undo_round_trip_witness :
  let store : gmap positive (list bool) := {[ 1%positive := [false; true] ]} in
  let state := {| isOn := false; history := 1%positive |} in
  store !! history state = Some [false; true]
  /\ exists state1 store1 state2 store2,
       toggleReducer store state TOGGLE = Some (state1, store1)
       /\ toggleReducer store1 state1 UNDO = Some (state2, store2)
       /\ isOn state2 = isOn state
       /\ store2 !! history state2 = Some [false; true]
       /\ store2 !! history state = Some [false; true].
Proof.
  cbv zeta. split; [reflexivity|].
  apply (toggle_undo_round_trip {[ 1%positive := [false; true] ]}
           {| isOn := false; history := 1%positive |} [false; true]).
  reflexivity.
Defined.

Lemma undo_changes_its_argument_witness :
  let store : gmap positive (list bool) := {[ 1%positive := [false; true] ]} in
  let state := {| isOn := false; history := 1%positive |} in
  store !! history state = Some ([false] ++ [true])%list
  /\ exists state1 store1 state2 store2,
       toggleReducer store state UNDO = Some (state1, store1)
       /\ isOn state1 = true
       /\ store1 !! history state1 = Some [false]
       /\ store1 !! history state = Some [false]
       /\ toggleReducer store1 state UNDO = Some (state2, store2)
       /\ isOn state2 = default (isOn state) (last [false])
       /\ store2 !! history state2 = Some (removelast [false]).
Proof.
  cbv zeta. split; [reflexivity|].
  apply (undo_changes_its_argument {[ 1%positive := [false; true] ]}
           {| isOn := false; history := 1%positive |} [false] true).
  reflexivity.
Defined.

Lemma undo_empty_history_witness :
  let store : gmap positive (list bool) := {[ 1%positive := [] ]} in
  let state := {| isOn := true; history := 1%positive |} in
  store !! history state = Some []
  /\ exists state1 store1,
       toggleReducer store state UNDO = Some (state1, store1)
       /\ isOn state1 = isOn state
       /\ store1 !! history state1 = Some []
       /\ (forall l, is_Some (store !! l) -> store1 !! l = store !! l).
Proof.
  cbv zeta. split; [reflexivity|].
  apply (undo_empty_history {[ 1%positive := [] ]}
           {| isOn := true; history := 1%positive |}).
  reflexivity.
Defined.

Lemma toggle_keeps_its_argument_witness :
  let store : gmap positive (list bool) := {[ 1%positive := [true] ]} in
  let state := {| isOn := false; history := 1%positive |} in
  store !! history state = Some [true]
  /\ exists state1 store1,
       toggleReducer store state TOGGLE = Some (state1, store1)
       /\ isOn state1 = negb (isOn state)
       /\ store1 !! history state1 = Some ([true] ++ [isOn state])%list
       /\ history state1 <> history state
       /\ (forall l, is_Some (store !! l) -> store1 !! l = store !! l).
Proof.
  cbv zeta. split; [reflexivity|].
  apply (toggle_keeps_its_argument {[ 1%positive := [true] ]}
           {| isOn := false; history := 1%positive |} [true]).
  reflexivity.
Defined.
